(** * worker-fullstack: the request router of [src/server/index.ts]

    The module builds one Hono application, registers three GET routes on
    it and exports it:

      - [GET /api/health]  answers [c.json({status, message})];
      - [GET /api/hello]   answers [c.json({message})];
      - [GET *]            runs [serveStatic({ root: './' })].

    The route table, the two handlers and the order of registration are
    transcribed from the module.  What the module imports from the [hono]
    package -- [new Hono()], [app.get], [c.json], the dispatch of
    [app.fetch] with its error and not-found handlers, and the
    [serveStatic] middleware of [hono/cloudflare-workers] -- is embedded
    next to it, one definition per framework function, so that the
    exported [app] can be run on requests.  The static files belong to
    the hosting platform and are held in the environment; the two pure
    helpers of the middleware (which file a path stands for, which media
    type a file name has) are an interface the development is stated
    over. *)

From Stdlib Require Import String Ascii List Bool Arith Lia.
Import ListNotations.
Open Scope string_scope.

(** ** HTTP messages *)

Definition Headers := list (string * string).

(** A request as Hono presents it to the router and the handlers:
    [req_path] is [c.req.path], the path component of the URL with the
    query string removed and its percent escapes decoded as [getPath]
    does, so [/api/%68ello] arrives here as [/api/hello]. *)
Record Request := mkRequest {
  req_method  : string;   (* as the Fetch API hands it over: "GET", "POST", ... *)
  req_path    : string;   (* the path the router matches on *)
  req_headers : Headers;
  req_body    : string
}.

(** A body is a byte string; [None] is the [null] body of
    [new Response(null, ...)]. *)
Record Response := mkResponse {
  res_status  : nat;
  res_headers : Headers;
  res_body    : option string
}.

Fixpoint get_header (name : string) (hs : Headers) : option string :=
  match hs with
  | [] => None
  | (k, v) :: rest => if String.eqb k name then Some v else get_header name rest
  end.

Definition content_type (r : Response) : option string :=
  get_header "content-type" (res_headers r).

(** ** JSON values and [JSON.stringify]

    Only objects and strings occur in the module. *)

Inductive JValue :=
| JString (s : string)
| JObject (members : JMembers)
with JMembers :=
| JEnd
| JMember (key : string) (value : JValue) (rest : JMembers).

Definition dquote : ascii := "034"%char.
Definition backslash : ascii := "\"%char.

Definition hex_digit (n : nat) : ascii :=
  if Nat.ltb n 10 then ascii_of_nat (48 + n) else ascii_of_nat (87 + n).

(** One character of a quoted JSON string. *)
Definition json_escape (c : ascii) : string :=
  let n := nat_of_ascii c in
  if Nat.eqb n 34 then String backslash (String dquote "")
  else if Nat.eqb n 92 then String backslash (String backslash "")
  else if Nat.eqb n 8 then String backslash "b"
  else if Nat.eqb n 9 then String backslash "t"
  else if Nat.eqb n 10 then String backslash "n"
  else if Nat.eqb n 12 then String backslash "f"
  else if Nat.eqb n 13 then String backslash "r"
  else if Nat.ltb n 32 then
    String backslash
      ("u00" ++ String (hex_digit (n / 16)) (String (hex_digit (n mod 16)) ""))
  else String c "".

Fixpoint json_escape_all (s : string) : string :=
  match s with
  | EmptyString => ""
  | String c rest => json_escape c ++ json_escape_all rest
  end.

Definition json_quote (s : string) : string :=
  String dquote (json_escape_all s ++ String dquote "").

Fixpoint join (sep : string) (parts : list string) : string :=
  match parts with
  | [] => ""
  | [p] => p
  | p :: rest => p ++ sep ++ join sep rest
  end.

Fixpoint stringify (v : JValue) : string :=
  match v with
  | JString s => json_quote s
  | JObject members => "{" ++ join "," (stringify_members members) ++ "}"
  end
with stringify_members (ms : JMembers) : list string :=
  match ms with
  | JEnd => []
  | JMember key value rest =>
      (json_quote key ++ ":" ++ stringify value) :: stringify_members rest
  end.

(** ** The static asset provider and the environment of a request

    [serveStatic] of [hono/cloudflare-workers] reads files from the
    Workers Sites key-value store: a manifest and a namespace that the
    platform gives the worker.  [Some kv] is a deployment that has them,
    [kv path] being the content stored for a file path; [None] is a
    deployment that has none, such as the one [TUTORIAL.md] configures
    (an [assets] binding, no Workers Sites), where the module's call
    [serveStatic({ root: './' })], which passes no manifest, finds no
    manifest to read.  Each question put to the provider is recorded in
    [reads]; nothing else in the environment can change while a request
    is handled. *)

Definition AssetStore := option (string -> option string).

Record Env := mkEnv {
  store : AssetStore;
  reads : list string
}.

(** What a computation that may throw ends with. *)
Inductive Result (A : Type) : Type :=
| Ok (a : A)
| Threw.

Arguments Ok {A} a.
Arguments Threw {A}.

(** Computations of a handler: they read the environment, may consult
    the provider and may throw. *)
Definition M (A : Type) : Type := Env -> Result A * Env.

Definition ret {A} (a : A) : M A := fun e => (Ok a, e).

Definition bind {A B} (m : M A) (k : A -> M B) : M B :=
  fun e =>
    match m e with
    | (Ok a, e') => k a e'
    | (Threw, e') => (Threw, e')
    end.

Notation "x <- m ;; k" := (bind m (fun x => k))
  (at level 61, m at next level, right associativity).

(** A pure step that may throw. *)
Definition lift {A} (r : Result A) : M A := fun e => (r, e).

(** [getContentFromKVAsset(path, { manifest, namespace })]: without a
    manifest the read of it throws; with one, the content stored for the
    path or [null]. *)
Definition getContentFromKVAsset (s : AssetStore) (path : string)
  : Result (option string) :=
  match s with
  | None => Threw
  | Some kv => Ok (kv path)
  end.

(** The [getContent] that the adapter hands to the middleware. *)
Definition getContent (path : string) : M (option string) :=
  fun e => (getContentFromKVAsset (store e) path,
            mkEnv (store e) (reads e ++ [path])).

(** The pure helpers of the [serve-static] middleware.

    [filePath root p] is the file path asked for when the request path is
    [p]: [join(root, decodeURIComponent(p))]; it is [None] when [p]
    cannot be decoded or the decoded path has a [..] segment, in which
    case the middleware does not ask at all.

    [contentTypeOf path] is the value given to the [Content-Type] header
    of a file: [getMimeType(path) || 'application/octet-stream'], read
    off the extension of the file name; [Threw] where that computation
    throws. *)
Class ServeStaticHelpers := {
  filePath : string -> string -> option string;
  contentTypeOf : string -> Result string
}.

(** ** The part of Hono the module uses *)

(** [c.json(obj)]: status 200, the object serialised, JSON media type. *)
Definition c_json (obj : JValue) : Response :=
  mkResponse 200 [("content-type", "application/json")] (Some (stringify obj)).

(** [c.text(text, status)]. *)
Definition c_text (text : string) (status : nat) : Response :=
  mkResponse status [("content-type", "text/plain; charset=UTF-8")] (Some text).

(** [c.body(data)] after [c.header('Content-Type', mime)]. *)
Definition c_body (mime : string) (data : string) : Response :=
  mkResponse 200 [("content-type", mime)] (Some data).

(** A handler receives the request and [next], the rest of the chain. *)
Definition Handler := Request -> M Response -> M Response.

Record Route := mkRoute {
  route_method  : string;
  route_path    : string;
  route_handler : Handler
}.

Record Hono := mkHono { routes : list Route }.

Definition new_Hono : Hono := mkHono [].

(** [app.get(path, handler)] appends a route for the method GET. *)
Definition get (path : string) (h : Handler) (app : Hono) : Hono :=
  mkHono (routes app ++ [mkRoute "GET" path h]).

(** The two pattern forms of the module: a literal path, matched exactly,
    and the wildcard ["*"], matched by every path. *)
Definition match_path (pattern path : string) : bool :=
  String.eqb pattern "*" || String.eqb pattern path.

Definition match_route (method path : string) (r : Route) : bool :=
  (String.eqb (route_method r) method || String.eqb (route_method r) "ALL")
  && match_path (route_path r) path.

(** [router.match(method, path)]: the matching routes, in registration
    order. *)
Definition router_match (app : Hono) (method path : string) : list Route :=
  filter (match_route method path) (routes app).

(** Default not-found handler. *)
Definition notFoundHandler (_ : Request) : M Response :=
  ret (c_text "404 Not Found" 404).

(** Default error handler: what a thrown error is answered with. *)
Definition errorHandler : Response := c_text "Internal Server Error" 500.

(** [try { ... } catch (err) { onError(err, c) }]. *)
Definition handleError (m : M Response) : M Response :=
  fun e =>
    match m e with
    | (Ok r, e') => (Ok r, e')
    | (Threw, e') => (Ok errorHandler, e')
    end.

(** [compose]: the first handler runs with the remaining ones as [next],
    an error it throws is answered by the error handler; past the last
    one the not-found handler answers. *)
Fixpoint compose (hs : list Handler) (c : Request) : M Response :=
  match hs with
  | [] => notFoundHandler c
  | h :: rest => handleError (h c (compose rest c))
  end.

(** The dispatch of one request under a given method: the matching
    handlers composed, and whatever still escapes answered by the error
    handler. *)
Definition dispatch (app : Hono) (c : Request) (method : string)
  : Env -> Response * Env :=
  fun e =>
    match compose (map route_handler (router_match app method (req_path c))) c e with
    | (Ok r, e') => (r, e')
    | (Threw, e') => (errorHandler, e')
    end.

(** [app.fetch]: a HEAD request is dispatched as GET and answered with the
    status and headers of that response and a null body. *)
Definition fetch (app : Hono) (c : Request) : Env -> Response * Env :=
  fun e =>
    if String.eqb (req_method c) "HEAD" then
      let (r, e') := dispatch app c "GET" e in
      (mkResponse (res_status r) (res_headers r) None, e')
    else dispatch app c (req_method c) e.

(** ** [src/server/index.ts], the two API handlers *)

Definition health_payload : JValue :=
  JObject (JMember "status" (JString "ok")
          (JMember "message" (JString "Server is running") JEnd)).

Definition hello_payload : JValue :=
  JObject (JMember "message" (JString "Hello from Hono!") JEnd).

Definition health_handler : Handler := fun c _ => ret (c_json health_payload).

Definition hello_handler : Handler := fun c _ => ret (c_json hello_payload).

(** ** The worker as a server: requests handled one after another *)

Record Server := mkServer {
  srv_app : Hono;
  srv_env : Env
}.

Definition serve (s : Server) (c : Request) : Response * Server :=
  let (r, e') := fetch (srv_app s) c (srv_env s) in
  (r, mkServer (srv_app s) e').

Fixpoint run (s : Server) (cs : list Request) : list Response * Server :=
  match cs with
  | [] => ([], s)
  | c :: rest =>
      let (r, s1) := serve s c in
      let (rs, s2) := run s1 rest in
      (r :: rs, s2)
  end.

(** ** The payloads on the wire *)

Definition q (s : string) : string := String dquote (s ++ String dquote "").

Definition health_wire : string :=
  "{" ++ q "status" ++ ":" ++ q "ok" ++ "," ++
         q "message" ++ ":" ++ q "Server is running" ++ "}".

Definition hello_wire : string :=
  "{" ++ q "message" ++ ":" ++ q "Hello from Hono!" ++ "}".

Definition GET_ (path : string) (hs : Headers) (body : string) : Request :=
  mkRequest "GET" path hs body.

(** The two API routes and the default answers, by name. *)
Definition route_health : Route := mkRoute "GET" "/api/health" health_handler.
Definition route_hello  : Route := mkRoute "GET" "/api/hello" hello_handler.

Definition not_found : Response := c_text "404 Not Found" 404.

(** ** The backend of the tutorial's step 10

    [TUTORIAL.md] first writes the module with the two API routes only;
    the wildcard route is what the final [src/server/index.ts] adds. *)
Definition app_api_only : Hono :=
  get "/api/hello" hello_handler
    (get "/api/health" health_handler new_Hono).

(** A handler that answers a request itself: its result does not depend
    on [next], the rest of the chain. *)
Definition answers_alone (h : Handler) (c : Request) : Prop :=
  forall (next1 next2 : M Response) (e : Env), h c next1 e = h c next2 e.

(** ** Sample stores, helpers and requests used in the examples below *)

Definition index_html : string := "<!doctype html><title>app</title>".

(** A build output holding only [index.html]. *)
Definition site_store : AssetStore :=
  Some (fun path => if String.eqb path "index.html" then Some index_html else None).

(** A build output in which files shadow the two API paths. *)
Definition shadow_store : AssetStore :=
  Some (fun path => if String.eqb path "api/health" then Some "shadow"
                    else if String.eqb path "api/hello" then Some "shadow"
                    else None).


(** Four requests in a row; the first and the last ask for the health
    check with different headers and bodies. *)
Definition sample_traffic : list Request :=
  [ GET_ "/api/health" [("accept", "*/*")] "";
    GET_ "/index.html" [] "";
    mkRequest "POST" "/api/hello" [] "x";
    GET_ "/api/health" [("x-trace", "7")] "ignored" ].

Definition contains (sub s : string) : bool :=
  match index 0 sub s with Some _ => true | None => false end.

Definition ends_with (suffix s : string) : bool :=
  String.eqb (substring (String.length s - String.length suffix)
                        (String.length suffix) s) suffix
  && (String.length suffix <=? String.length s)%nat.

Definition plain_char (c : ascii) : bool :=
  let n := nat_of_ascii c in
  ((48 <=? n) && (n <=? 57) || (65 <=? n) && (n <=? 90) ||
   (97 <=? n) && (n <=? 122) || (n =? 45) || (n =? 95) ||
   (n =? 46) || (n =? 47))%nat.

Fixpoint all_plain (s : string) : bool :=
  match s with
  | EmptyString => true
  | String c rest => plain_char c && all_plain rest
  end.

(** The helpers on plain paths: a slash followed by segments of letters,
    digits, [-], [_] and [.] that are not empty and do not start with a
    dot.  Such a path needs no decoding and [join('./', p)] is [p]
    without its leading slash.  The examples use only such paths; on any
    other path this sample refuses, which the real helper need not do. *)
Definition plain_filePath (root p : string) : option string :=
  match p with
  | String "/" rest =>
      if all_plain rest && negb (contains "//" p) && negb (contains "/." p)
         && negb (ends_with "/" p)
      then Some rest else None
  | _ => None
  end.

Definition plain_contentType (path : string) : Result string :=
  if ends_with ".html" path then Ok "text/html; charset=utf-8"
  else if ends_with ".css" path then Ok "text/css; charset=utf-8"
  else Ok "application/octet-stream".

Definition plain_files : ServeStaticHelpers :=
  {| filePath := plain_filePath; contentTypeOf := plain_contentType |}.

Section Worker.

Context {helpers : ServeStaticHelpers}.

(** [serveStatic({ root })]: a request path that stands for no file is
    passed on unasked; otherwise the provider is asked for the file, a
    file found is the response, with the media type of its name, and
    without one the middleware hands over to [next]. *)
Definition serveStatic (root : string) : Handler :=
  fun c next =>
    match filePath root (req_path c) with
    | None => next
    | Some path =>
        content <- getContent path ;;
        match content with
        | Some data =>
            mime <- lift (contentTypeOf path) ;;
            ret (c_body mime data)
        | None => next
        end
    end.

Definition route_static : Route := mkRoute "GET" "*" (serveStatic "./").

(** ** [src/server/index.ts], the application *)

Definition app : Hono :=
  get "*" (serveStatic "./")
    (get "/api/hello" hello_handler
      (get "/api/health" health_handler new_Hono)).

(** The application with the wildcard route alone. *)
Definition static_only : Hono := get "*" (serveStatic "./") new_Hono.

(** A request path resolves to an asset: it stands for a file, the store
    holds content for that file, and the file's name has a media type. *)
Definition resolves_to_asset (e : Env) (p data mime : string) : Prop :=
  exists (kv : string -> option string) (path : string),
    store e = Some kv /\
    filePath "./" p = Some path /\
    kv path = Some data /\
    contentTypeOf path = Ok mime.

(** ** Routing lemmas *)

Lemma routes_app : routes app = [route_health; route_hello; route_static].
Proof. reflexivity. Qed.

Lemma match_route_GET (m p pat : string) (h : Handler) :
  match_route m p (mkRoute "GET" pat h) = String.eqb "GET" m && match_path pat p.
Proof.
  unfold match_route; cbn [route_method route_path].
  change (String.eqb "GET" "ALL") with false.
  now rewrite orb_false_r.
Qed.

Lemma match_path_star (p : string) : match_path "*" p = true.
Proof. reflexivity. Qed.

Lemma match_path_literal (pat p : string) :
  String.eqb pat "*" = false -> match_path pat p = String.eqb pat p.
Proof. unfold match_path; intros ->; reflexivity. Qed.

(** Which routes a request meets depends on two tests only. *)
Lemma router_match_app (m p : string) :
  router_match app m p =
    if String.eqb "GET" m then
      ((if String.eqb "/api/health" p then [route_health] else []) ++
       (if String.eqb "/api/hello" p then [route_hello] else []) ++
       [route_static])%list
    else [].
Proof.
  unfold router_match; rewrite routes_app.
  unfold route_health, route_hello, route_static; cbn [filter].
  rewrite !match_route_GET, match_path_star.
  rewrite !match_path_literal by reflexivity.
  destruct (String.eqb "GET" m); cbn [andb]; [|reflexivity].
  destruct (String.eqb "/api/health" p), (String.eqb "/api/hello" p); reflexivity.
Qed.

Lemma router_match_static_only (m p : string) :
  router_match static_only m p =
    if String.eqb "GET" m then [route_static] else [].
Proof.
  unfold router_match.
  change (routes static_only) with [route_static].
  unfold route_static; cbn [filter].
  rewrite match_route_GET, match_path_star.
  destruct (String.eqb "GET" m); reflexivity.
Qed.

Lemma router_match_api_only (m p : string) :
  router_match app_api_only m p =
    if String.eqb "GET" m then
      ((if String.eqb "/api/health" p then [route_health] else []) ++
       (if String.eqb "/api/hello" p then [route_hello] else []))%list
    else [].
Proof.
  unfold router_match.
  change (routes app_api_only) with [route_health; route_hello].
  unfold route_health, route_hello; cbn [filter].
  rewrite !match_route_GET, !match_path_literal by reflexivity.
  destruct (String.eqb "GET" m); cbn [andb]; [|reflexivity].
  destruct (String.eqb "/api/health" p), (String.eqb "/api/hello" p); reflexivity.
Qed.

Lemma eqb_false_of_neq (a b : string) : a <> b -> String.eqb a b = false.
Proof. intro H; now apply String.eqb_neq. Qed.

(** What the wildcard route alone answers, case by case: the path is
    refused, the provider has no manifest, the file is missing, the
    media type cannot be computed, or the file is served. *)
Lemma static_cases (c : Request) (e : Env) :
  dispatch static_only c "GET" e =
    match filePath "./" (req_path c) with
    | None => (not_found, e)
    | Some path =>
        let e' := mkEnv (store e) (reads e ++ [path])%list in
        match store e with
        | None => (errorHandler, e')
        | Some kv =>
            match kv path with
            | None => (not_found, e')
            | Some data =>
                match contentTypeOf path with
                | Ok mime => (c_body mime data, e')
                | Threw => (errorHandler, e')
                end
            end
        end
    end.
Proof.
  unfold dispatch; rewrite router_match_static_only.
  change (String.eqb "GET" "GET") with true; cbn iota.
  cbn [map route_handler route_static compose].
  unfold handleError, serveStatic, bind, getContent, getContentFromKVAsset, lift.
  destruct (filePath "./" (req_path c)) as [path|]; [|reflexivity].
  destruct (store e) as [kv|]; [|reflexivity].
  destruct (kv path) as [data|]; [|reflexivity].
  destruct (contentTypeOf path); reflexivity.
Qed.

(** The whole behaviour of [app] on one dispatch, case by case. *)
Lemma dispatch_app_cases (c : Request) (m : string) (e : Env) :
  dispatch app c m e =
    if String.eqb "GET" m then
      if String.eqb "/api/health" (req_path c) then (c_json health_payload, e)
      else if String.eqb "/api/hello" (req_path c) then (c_json hello_payload, e)
      else dispatch static_only c "GET" e
    else (not_found, e).
Proof.
  unfold dispatch at 1; rewrite router_match_app.
  destruct (String.eqb "GET" m); [|reflexivity].
  destruct (String.eqb "/api/health" (req_path c)); [reflexivity|].
  destruct (String.eqb "/api/hello" (req_path c)); [reflexivity|].
  unfold dispatch; rewrite router_match_static_only; reflexivity.
Qed.

Lemma dispatch_api_only_cases (c : Request) (m : string) (e : Env) :
  dispatch app_api_only c m e =
    if String.eqb "GET" m then
      if String.eqb "/api/health" (req_path c) then (c_json health_payload, e)
      else if String.eqb "/api/hello" (req_path c) then (c_json hello_payload, e)
      else (not_found, e)
    else (not_found, e).
Proof.
  unfold dispatch; rewrite router_match_api_only.
  destruct (String.eqb "GET" m); [|reflexivity].
  destruct (String.eqb "/api/health" (req_path c)),
           (String.eqb "/api/hello" (req_path c)); reflexivity.
Qed.

Lemma dispatch_no_GET (c : Request) (m : string) (e : Env) :
  m <> "GET" -> dispatch app c m e = (not_found, e).
Proof.
  intro H; rewrite dispatch_app_cases.
  rewrite eqb_false_of_neq by congruence.
  reflexivity.
Qed.

Lemma dispatch_health (c : Request) (e : Env) :
  req_path c = "/api/health" ->
  dispatch app c "GET" e = (c_json health_payload, e).
Proof.
  intro H; rewrite dispatch_app_cases, H; reflexivity.
Qed.

Lemma dispatch_hello (c : Request) (e : Env) :
  req_path c = "/api/hello" ->
  dispatch app c "GET" e = (c_json hello_payload, e).
Proof.
  intro H; rewrite dispatch_app_cases, H; reflexivity.
Qed.

(** Every other GET path meets the wildcard route alone. *)
Lemma dispatch_static (c : Request) (e : Env) :
  req_path c <> "/api/health" -> req_path c <> "/api/hello" ->
  dispatch app c "GET" e = dispatch static_only c "GET" e.
Proof.
  intros H1 H2; rewrite dispatch_app_cases.
  change (String.eqb "GET" "GET") with true; cbn iota.
  rewrite !eqb_false_of_neq by congruence.
  reflexivity.
Qed.

Lemma fetch_unfold (a : Hono) (c : Request) (e : Env) :
  fetch a c e =
    if String.eqb (req_method c) "HEAD" then
      (mkResponse (res_status (fst (dispatch a c "GET" e)))
                  (res_headers (fst (dispatch a c "GET" e))) None,
       snd (dispatch a c "GET" e))
    else dispatch a c (req_method c) e.
Proof.
  unfold fetch; destruct (String.eqb (req_method c) "HEAD"); [|reflexivity].
  destruct (dispatch a c "GET" e); reflexivity.
Qed.

Lemma fetch_not_HEAD (c : Request) (e : Env) :
  req_method c <> "HEAD" -> fetch app c e = dispatch app c (req_method c) e.
Proof.
  intro H; unfold fetch; now rewrite eqb_false_of_neq.
Qed.

Lemma fetch_GET (c : Request) (e : Env) :
  req_method c = "GET" -> fetch app c e = dispatch app c "GET" e.
Proof.
  intro H; rewrite fetch_not_HEAD; rewrite H; [reflexivity | discriminate].
Qed.

(** Splits on the tests a request goes through: HEAD or not, a GET route
    or none, which API path, and the cases of the wildcard route. *)
Ltac fetch_cases :=
  rewrite ?fetch_unfold, ?dispatch_app_cases, ?dispatch_api_only_cases,
          ?static_cases;
  change (String.eqb "GET" "GET") with true; cbn iota;
  repeat match goal with
  | |- context [if ?b then _ else _] => destruct b eqn:?
  | |- context [match ?x with _ => _ end] => destruct x eqn:?
  end;
  cbn [fst snd res_status res_headers res_body c_json c_body c_text
       not_found errorHandler store reads].

Ltac eqb_facts :=
  repeat match goal with
  | H : String.eqb _ _ = true |- _ => apply String.eqb_eq in H
  | H : String.eqb _ _ = false |- _ => apply String.eqb_neq in H
  end.

(** Whatever the request, the provider and the application stay as they
    were, and the answer does not depend on earlier reads. *)
Lemma fetch_store (c : Request) (e : Env) :
  store (snd (fetch app c e)) = store e.
Proof.
  fetch_cases; first [ reflexivity | symmetry; assumption ].
Qed.

Lemma fetch_reads_irrelevant (c : Request) (e1 e2 : Env) :
  store e1 = store e2 -> fst (fetch app c e1) = fst (fetch app c e2).
Proof.
  intro H.
  rewrite !fetch_unfold, !dispatch_app_cases, !static_cases, H.
  destruct (String.eqb (req_method c) "HEAD"),
           (String.eqb "GET" (req_method c)),
           (String.eqb "/api/health" (req_path c)),
           (String.eqb "/api/hello" (req_path c));
    cbn; try reflexivity;
    destruct (filePath "./" (req_path c)) as [path|]; try reflexivity;
    destruct (store e2) as [kv|]; try reflexivity;
    destruct (kv path); try reflexivity;
    destruct (contentTypeOf path); reflexivity.
Qed.

(** The only trace of a request is what it looked up. *)
Lemma fetch_reads (c : Request) (e : Env) :
  exists looked_up,
    reads (snd (fetch app c e)) = (reads e ++ looked_up)%list.
Proof.
  fetch_cases;
    first [ now (exists []; rewrite app_nil_r) | eexists; reflexivity ].
Qed.

Lemma run_nth (cs : list Request) : forall (s : Server) (i : nat) c r,
  nth_error cs i = Some c ->
  nth_error (fst (run s cs)) i = Some r ->
  exists e, r = fst (fetch (srv_app s) c e).
Proof.
  induction cs as [|c0 rest IH]; intros s i c r Hc Hr.
  - destruct i; discriminate.
  - cbn [run] in Hr.
    destruct (serve s c0) as [r0 s1] eqn:E0.
    destruct (run s1 rest) as [rs s2] eqn:E1.
    assert (Happ : srv_app s1 = srv_app s).
    { unfold serve in E0. destruct (fetch (srv_app s) c0 (srv_env s)).
      inversion E0; reflexivity. }
    destruct i as [|i]; cbn in Hc, Hr.
    + inversion Hc; inversion Hr; subst.
      exists (srv_env s). unfold serve in E0.
      destruct (fetch (srv_app s) c (srv_env s)); now inversion E0.
    + rewrite <- Happ. apply (IH s1 i c r Hc).
      now rewrite E1.
Qed.

Lemma filter_snoc {A} (f : A -> bool) (l : list A) (x : A) :
  filter f (l ++ [x]) = (filter f l ++ (if f x then [x] else []))%list.
Proof.
  induction l as [|y l IH]; cbn.
  - destruct (f x); reflexivity.
  - rewrite IH; destruct (f y); reflexivity.
Qed.

Lemma serve_fst (s : Server) (c : Request) :
  fst (serve s c) = fst (fetch (srv_app s) c (srv_env s)).
Proof.
  unfold serve; destruct (fetch (srv_app s) c (srv_env s)); reflexivity.
Qed.

Lemma serve_snd (s : Server) (c : Request) :
  snd (serve s c) =
    mkServer (srv_app s) (snd (fetch (srv_app s) c (srv_env s))).
Proof.
  unfold serve; destruct (fetch (srv_app s) c (srv_env s)); reflexivity.
Qed.

Lemma run_app_isolated (cs : list Request) : forall (e0 e : Env),
  store e = store e0 ->
  fst (run (mkServer app e) cs) = map (fun c => fst (fetch app c e0)) cs /\
  srv_app (snd (run (mkServer app e) cs)) = app /\
  store (srv_env (snd (run (mkServer app e) cs))) = store e0.
Proof.
  induction cs as [|c rest IH]; intros e0 e Hs.
  - cbn; auto.
  - cbn [run map].
    pose proof (serve_fst (mkServer app e) c) as Hf.
    pose proof (serve_snd (mkServer app e) c) as Hn.
    destruct (serve (mkServer app e) c) as [r s1].
    cbn [fst snd srv_app srv_env] in Hf, Hn; subst r s1.
    assert (Hs1 : store (snd (fetch app c e)) = store e0)
      by (rewrite fetch_store; exact Hs).
    destruct (IH e0 _ Hs1) as (H1 & H2 & H3).
    destruct (run (mkServer app (snd (fetch app c e))) rest) as [rs s2].
    cbn [fst snd] in *.
    rewrite H1, (fetch_reads_irrelevant c e e0 Hs); auto.
Qed.

Lemma router_match_get (a : Hono) (p : string) (h : Handler) (m x : string) :
  router_match (get p h a) m x =
    (router_match a m x ++
     (if match_route m x (mkRoute "GET" p h) then [mkRoute "GET" p h] else []))%list.
Proof.
  unfold router_match, get; cbn [routes]. apply filter_snoc.
Qed.

(** ** The claims *)

(** C1. Every GET request for [/api/health], whatever its headers (and
    body, and whatever the asset store holds), is answered with status
    200, the body [{"status":"ok","message":"Server is running"}] and the
    content type [application/json]. *)
Theorem C1_health_response (hs : Headers) (body : string) (e : Env) :
  let r := fst (fetch app (GET_ "/api/health" hs body) e) in
  res_status r = 200 /\
  res_body r = Some health_wire /\
  content_type r = Some "application/json".
Proof.
  cbv zeta. rewrite fetch_GET by reflexivity.
  rewrite dispatch_health by reflexivity.
  repeat split.
Qed.

(** C2. Every GET request for [/api/hello], whatever its headers, is
    answered with status 200, the body [{"message":"Hello from Hono!"}]
    and the content type [application/json]. *)
Theorem C2_hello_response (hs : Headers) (body : string) (e : Env) :
  let r := fst (fetch app (GET_ "/api/hello" hs body) e) in
  res_status r = 200 /\
  res_body r = Some hello_wire /\
  content_type r = Some "application/json".
Proof.
  cbv zeta. rewrite fetch_GET by reflexivity.
  rewrite dispatch_hello by reflexivity.
  repeat split.
Qed.

(** C3, amended. Every GET request whose path is neither [/api/health]
    nor [/api/hello] is handed to static asset resolution: the wildcard
    route is the only one it meets and the answer is the one the static
    handler alone gives.  When the path resolves to an asset, that answer
    is the asset's bytes with status 200; otherwise it is whatever the
    static handler falls back to. *)
Theorem C3_get_falls_back_to_static (c : Request) (e : Env) :
  req_method c = "GET" ->
  req_path c <> "/api/health" ->
  req_path c <> "/api/hello" ->
  router_match app "GET" (req_path c) = [route_static] /\
  fetch app c e = dispatch static_only c "GET" e /\
  (forall data mime,
     resolves_to_asset e (req_path c) data mime ->
     res_status (fst (fetch app c e)) = 200 /\
     res_body (fst (fetch app c e)) = Some data).
Proof.
  intros Hm H1 H2.
  split; [|split].
  - rewrite router_match_app.
    change (String.eqb "GET" "GET") with true; cbn iota.
    rewrite !eqb_false_of_neq by congruence. reflexivity.
  - rewrite fetch_GET, dispatch_static by assumption. reflexivity.
  - intros data mime (kv & path & Hs & Hp & Hd & Hc).
    rewrite fetch_GET, dispatch_static, static_cases by assumption.
    rewrite Hp, Hs, Hd, Hc. split; reflexivity.
Qed.

(** C4, amended. A POST request for [/api/hello] meets no route, because
    the route is registered for the method GET: whatever its headers and
    body, the answer is the default 404 Not Found response, which differs
    from the answer to GET [/api/hello], and the asset provider is not
    consulted. *)
Theorem C4_post_hello_not_found (hs : Headers) (body : string) (e : Env) :
  router_match app "POST" "/api/hello" = [] /\
  fetch app (mkRequest "POST" "/api/hello" hs body) e = (not_found, e) /\
  fst (fetch app (mkRequest "POST" "/api/hello" hs body) e) <>
    fst (fetch app (mkRequest "GET" "/api/hello" hs body) e).
Proof.
  split; [reflexivity|].
  rewrite fetch_not_HEAD by discriminate.
  rewrite dispatch_no_GET by discriminate.
  split; [reflexivity|].
  rewrite fetch_GET, dispatch_hello by reflexivity.
  discriminate.
Qed.

(** C5. The fixed API routes come before the wildcard in the list of
    routes a request meets, and the first one answers: for every asset
    store, also one holding files under [/api/health] or [/api/hello], a
    GET request for either path gets the fixed JSON payload, and the
    provider is not consulted at all. *)
Theorem C5_api_routes_before_static (hs : Headers) (body : string) (e : Env) :
  map route_path (router_match app "GET" "/api/health") = ["/api/health"; "*"] /\
  map route_path (router_match app "GET" "/api/hello") = ["/api/hello"; "*"] /\
  fetch app (GET_ "/api/health" hs body) e =
    (mkResponse 200 [("content-type", "application/json")] (Some health_wire), e) /\
  fetch app (GET_ "/api/hello" hs body) e =
    (mkResponse 200 [("content-type", "application/json")] (Some hello_wire), e).
Proof.
  split; [reflexivity|]. split; [reflexivity|]. split.
  - rewrite fetch_GET, dispatch_health by reflexivity. reflexivity.
  - rewrite fetch_GET, dispatch_hello by reflexivity. reflexivity.
Qed.


(** C8. The two API endpoints are deterministic: in any sequence of
    requests handled by the worker, any two GET requests for the same
    path, [/api/health] or [/api/hello], get byte-identical bodies (the
    serialised payload), whatever their headers, whatever was handled in
    between and whatever the asset store holds. *)
Theorem C8_api_bodies_identical
        (e : Env) (cs : list Request) (i j : nat) (ci cj : Request)
        (ri rj : Response) (p : string) :
  p = "/api/health" \/ p = "/api/hello" ->
  nth_error cs i = Some ci -> nth_error cs j = Some cj ->
  req_method ci = "GET" -> req_method cj = "GET" ->
  req_path ci = p -> req_path cj = p ->
  nth_error (fst (run (mkServer app e) cs)) i = Some ri ->
  nth_error (fst (run (mkServer app e) cs)) j = Some rj ->
  res_body ri = res_body rj /\
  (res_body ri = Some health_wire \/ res_body ri = Some hello_wire).
Proof.
  intros Hp Hci Hcj Hmi Hmj Hpi Hpj Hri Hrj.
  destruct (run_nth cs _ i ci ri Hci Hri) as [ei Ei].
  destruct (run_nth cs _ j cj rj Hcj Hrj) as [ej Ej].
  cbn [srv_app] in Ei, Ej.
  rewrite fetch_GET in Ei, Ej by assumption.
  destruct Hp as [-> | ->].
  - rewrite dispatch_health in Ei, Ej by assumption.
    subst ri rj; split; [reflexivity | left; reflexivity].
  - rewrite dispatch_hello in Ei, Ej by assumption.
    subst ri rj; split; [reflexivity | right; reflexivity].
Qed.

(** C9. Handling a request changes nothing that another request can
    observe: the application (its route table) and the asset store are
    the same afterwards, the only trace left is the list of paths looked
    up, and the answer to any other request is the same whether or not
    this request was handled before it. *)
Theorem C9_no_shared_state_change (e : Env) (c c' : Request) :
  let s := mkServer app e in
  let s' := snd (serve s c) in
  srv_app s' = srv_app s /\
  store (srv_env s') = store (srv_env s) /\
  (exists looked_up, reads (srv_env s') = (reads (srv_env s) ++ looked_up)%list) /\
  fst (serve s' c') = fst (serve s c').
Proof.
  cbv zeta. unfold serve; cbn [srv_app srv_env].
  pose proof (fetch_store c e) as Hs.
  pose proof (fetch_reads c e) as Hr.
  destruct (fetch app c e) as [r e1]; cbn [snd srv_app srv_env fst] in *.
  repeat split; try assumption.
  pose proof (fetch_reads_irrelevant c' e1 e Hs) as Hi.
  destruct (fetch app c' e1), (fetch app c' e); exact Hi.
Qed.

(** C10, amended. All three routes, the wildcard included, are registered
    for GET alone: a request whose method is neither GET nor HEAD meets
    no route, whatever its path; the asset provider is not consulted and
    the answer is the default 404 Not Found response. *)
Theorem C10_other_methods_not_found (c : Request) (e : Env) :
  req_method c <> "GET" ->
  req_method c <> "HEAD" ->
  router_match app (req_method c) (req_path c) = [] /\
  fetch app c e = (not_found, e) /\
  reads (snd (fetch app c e)) = reads e.
Proof.
  intros Hg Hh.
  assert (F : fetch app c e = (not_found, e)).
  { rewrite fetch_not_HEAD by assumption. now apply dispatch_no_GET. }
  repeat split.
  - rewrite router_match_app, eqb_false_of_neq by congruence. reflexivity.
  - exact F.
  - now rewrite F.
Qed.

(** ** Further properties of the exported application *)

(** X1. The worker answers with status 200, 404 or 500 and nothing
    else, whatever the request, the asset store and the helpers. *)
Theorem status_is_200_404_or_500 (c : Request) (e : Env) :
  res_status (fst (fetch app c e)) = 200 \/
  res_status (fst (fetch app c e)) = 404 \/
  res_status (fst (fetch app c e)) = 500.
Proof.
  fetch_cases; auto.
Qed.

(** X2. The answer is 404 exactly when the method is neither GET nor
    HEAD, or the path is neither API path and either stands for no file
    or stands for a file that an available store does not hold. *)
Theorem not_found_iff (c : Request) (e : Env) :
  res_status (fst (fetch app c e)) = 404 <->
  (req_method c <> "GET" /\ req_method c <> "HEAD") \/
  (req_path c <> "/api/health" /\ req_path c <> "/api/hello" /\
   (filePath "./" (req_path c) = None \/
    exists kv path, store e = Some kv /\
                    filePath "./" (req_path c) = Some path /\
                    kv path = None)).
Proof.
  fetch_cases; eqb_facts; split; intro H;
    try discriminate; try reflexivity;
    try (left; split; congruence);
    try (right; split; [congruence|]; split; [congruence|];
         first [ left; reflexivity
               | right; eexists; eexists; repeat split; eassumption ]);
    try (destruct H as [[? ?] | (? & ? & [? | (kv' & p' & ? & ? & ?)])];
         congruence).
Qed.

(** X3. The asset provider is consulted at most once per request, and
    exactly for the GET and HEAD requests whose path is not an API path
    and stands for a file; it is asked for that file.  The store itself
    is never changed. *)
Theorem provider_reads (c : Request) (e : Env) :
  store (snd (fetch app c e)) = store e /\
  reads (snd (fetch app c e)) =
    if (String.eqb (req_method c) "GET" || String.eqb (req_method c) "HEAD")
       && negb (String.eqb (req_path c) "/api/health")
       && negb (String.eqb (req_path c) "/api/hello")
    then match filePath "./" (req_path c) with
         | Some path => (reads e ++ [path])%list
         | None => reads e
         end
    else reads e.
Proof.
  split; [apply fetch_store|].
  rewrite (String.eqb_sym (req_method c) "GET").
  rewrite (String.eqb_sym (req_path c) "/api/health").
  rewrite (String.eqb_sym (req_path c) "/api/hello").
  rewrite fetch_unfold, !dispatch_app_cases, static_cases.
  change (String.eqb "GET" "GET") with true; cbn iota.
  destruct (String.eqb (req_method c) "HEAD") eqn:Hhead;
  destruct (String.eqb "GET" (req_method c)) eqn:Hget;
  destruct (String.eqb "/api/health" (req_path c));
  destruct (String.eqb "/api/hello" (req_path c));
  cbn [orb andb negb snd]; try reflexivity;
  try (eqb_facts; rewrite Hhead in Hget; discriminate);
  destruct (filePath "./" (req_path c)) as [path|]; try reflexivity;
  destruct (store e) as [kv|]; try reflexivity;
  destruct (kv path); try reflexivity;
  destruct (contentTypeOf path); reflexivity.
Qed.

(** X4. A HEAD request is answered like the GET request for the same
    path, headers and body, with the same status and response headers
    and the same provider lookups, but with a null body. *)
Theorem head_mirrors_get (p : string) (hs : Headers) (b : string) (e : Env) :
  let g := fetch app (mkRequest "GET" p hs b) e in
  fetch app (mkRequest "HEAD" p hs b) e =
    (mkResponse (res_status (fst g)) (res_headers (fst g)) None, snd g).
Proof.
  cbv zeta. rewrite !fetch_unfold; cbn [req_method].
  change (String.eqb "HEAD" "HEAD") with true.
  change (String.eqb "GET" "HEAD") with false; cbn iota.
  rewrite !dispatch_app_cases, !static_cases; reflexivity.
Qed.

Lemma dispatch_depends_on (c1 c2 : Request) (m : string) (e1 e2 : Env) :
  req_path c1 = req_path c2 ->
  (forall path, filePath "./" (req_path c1) = Some path ->
     getContentFromKVAsset (store e1) path =
     getContentFromKVAsset (store e2) path) ->
  fst (dispatch app c1 m e1) = fst (dispatch app c2 m e2).
Proof.
  intros Hp Hs; rewrite !dispatch_app_cases, !static_cases, <- Hp.
  destruct (String.eqb "GET" m); [|reflexivity].
  destruct (String.eqb "/api/health" (req_path c1)); [reflexivity|].
  destruct (String.eqb "/api/hello" (req_path c1)); [reflexivity|].
  destruct (filePath "./" (req_path c1)) as [path|]; [|reflexivity].
  specialize (Hs path eq_refl). unfold getContentFromKVAsset in Hs.
  destruct (store e1) as [kv1|], (store e2) as [kv2|];
    try discriminate; [|reflexivity].
  injection Hs as Hs; rewrite Hs.
  destruct (kv2 path); [|reflexivity].
  destruct (contentTypeOf path); reflexivity.
Qed.

(** X5. The answer depends on the method, the path and what the provider
    answers for the file the path stands for, and on nothing else:
    request headers, request body, the rest of the store and earlier
    lookups play no part. *)
Theorem response_depends_on_method_path_asset
        (c1 c2 : Request) (e1 e2 : Env) :
  req_method c1 = req_method c2 ->
  req_path c1 = req_path c2 ->
  (forall path, filePath "./" (req_path c1) = Some path ->
     getContentFromKVAsset (store e1) path =
     getContentFromKVAsset (store e2) path) ->
  fst (fetch app c1 e1) = fst (fetch app c2 e2).
Proof.
  intros Hm Hp Hs; rewrite !fetch_unfold, <- Hm.
  destruct (String.eqb (req_method c1) "HEAD").
  - cbn [fst]. now rewrite (dispatch_depends_on c1 c2 "GET" e1 e2 Hp Hs).
  - now apply dispatch_depends_on.
Qed.

(** X6. Requests handled one after another are isolated from each other:
    every answer in the sequence is the answer the request would get if
    it were the only one, and after the whole sequence the application
    and the asset store are what they were. *)
Theorem run_requests_isolated (e : Env) (cs : list Request) :
  fst (run (mkServer app e) cs) = map (fun c => fst (fetch app c e)) cs /\
  srv_app (snd (run (mkServer app e) cs)) = app /\
  store (srv_env (snd (run (mkServer app e) cs))) = store e.
Proof.
  now apply run_app_isolated.
Qed.

(** X7. A route registered later cannot shadow an earlier one: when the
    first route a request meets in an application has a handler that
    answers without calling [next], registering one more route with
    [app.get] leaves the answer to that request as it was. *)
Theorem later_route_cannot_shadow
        (a : Hono) (p : string) (h : Handler) (c : Request) (m : string)
        (e : Env) (first : Route) (others : list Route) :
  router_match a m (req_path c) = first :: others ->
  answers_alone (route_handler first) c ->
  dispatch (get p h a) c m e = dispatch a c m e.
Proof.
  intros Hmatch Halone; unfold dispatch.
  rewrite router_match_get, Hmatch; cbn [List.app map compose].
  unfold handleError.
  now rewrite (Halone _ (compose (map route_handler others) c) e).
Qed.

(** X8. The wildcard route leaves the answers of the tutorial's
    two-route backend in place: a request that the two-route backend
    answers with anything but 404, and every request whose method is
    neither GET nor HEAD, gets the same answer from the final
    application, and the provider is not consulted for it. *)
Theorem static_route_keeps_api_answers (c : Request) (e : Env) :
  res_status (fst (fetch app_api_only c e)) <> 404 \/
  (req_method c <> "GET" /\ req_method c <> "HEAD") ->
  fetch app c e = fetch app_api_only c e /\
  snd (fetch app c e) = e.
Proof.
  fetch_cases; eqb_facts; intro H;
    try (split; reflexivity);
    exfalso; destruct H as [H | [H1 H2]]; congruence.
Qed.

(** X9. A response has a null body exactly when the request method is
    HEAD: every other request, answered by a route, by the not-found
    handler or by the error handler, gets a body. *)
Theorem null_body_iff_head (c : Request) (e : Env) :
  res_body (fst (fetch app c e)) = None <-> req_method c = "HEAD".
Proof.
  fetch_cases; eqb_facts; split; intro H;
    try discriminate; try reflexivity; congruence.
Qed.

(** X10. In a deployment that gives the worker no manifest, the static
    handler cannot read any file: every GET request whose path is not an
    API path and stands for a file is answered 500 Internal Server
    Error, and every such HEAD request with status 500. *)
Theorem no_manifest_is_500 (c : Request) (e : Env) (path : string) :
  store e = None ->
  req_method c = "GET" \/ req_method c = "HEAD" ->
  req_path c <> "/api/health" ->
  req_path c <> "/api/hello" ->
  filePath "./" (req_path c) = Some path ->
  res_status (fst (fetch app c e)) = 500 /\
  (req_method c = "GET" -> fst (fetch app c e) = errorHandler).
Proof.
  intros Hs Hm H1 H2 Hf.
  rewrite fetch_unfold, !dispatch_app_cases, static_cases.
  change (String.eqb "GET" "GET") with true; cbn iota.
  rewrite !(eqb_false_of_neq _ _ (not_eq_sym H1)),
          !(eqb_false_of_neq _ _ (not_eq_sym H2)), Hf, Hs.
  destruct Hm as [Hm | Hm]; rewrite Hm; cbn; split; try reflexivity.
  discriminate.
Qed.

(** X11. Where the deployment does give the worker its files, a GET
    request whose path lies outside [/api/] and resolves to an asset is
    answered with status 200, exactly the bytes of that asset and, as
    content type, the media type of the file's name. *)
Theorem static_asset_served (c : Request) (e : Env) (data mime : string) :
  req_method c = "GET" ->
  prefix "/api/" (req_path c) = false ->
  resolves_to_asset e (req_path c) data mime ->
  let r := fst (fetch app c e) in
  res_status r = 200 /\
  res_body r = Some data /\
  content_type r = Some mime.
Proof.
  intros Hm Hp (kv & path & Hs & Hf & Hd & Hc); cbv zeta.
  assert (H1 : req_path c <> "/api/health")
    by (intro E; rewrite E in Hp; discriminate Hp).
  assert (H2 : req_path c <> "/api/hello")
    by (intro E; rewrite E in Hp; discriminate Hp).
  rewrite fetch_GET, dispatch_static, static_cases by assumption.
  rewrite Hf, Hs, Hd, Hc.
  repeat split.
Qed.

End Worker.

(** ** Checks on concrete inputs

    From here on the helpers are the ones on plain paths. *)

#[local] Existing Instance plain_files.

Example health_wire_is_stringify : stringify health_payload = health_wire.
Proof. reflexivity. Qed.

Example hello_wire_is_stringify : stringify hello_payload = hello_wire.
Proof. reflexivity. Qed.

Example shadowed_health_still_json :
  fetch app (GET_ "/api/health" [] "") (mkEnv shadow_store []) =
    (c_json health_payload, mkEnv shadow_store []).
Proof. reflexivity. Qed.

Example index_html_served :
  fetch app (GET_ "/index.html" [] "") (mkEnv site_store []) =
    (c_body "text/html; charset=utf-8" index_html,
     mkEnv site_store ["index.html"]).
Proof. reflexivity. Qed.

Example no_manifest_index_html :
  fetch app (GET_ "/index.html" [] "") (mkEnv None []) =
    (c_text "Internal Server Error" 500, mkEnv None ["index.html"]).
Proof. reflexivity. Qed.

(** C3, as the spec words it, fails: a POST request for a path that holds
    an asset is not handed to static asset resolution.  The provider is
    not consulted and the answer is 404, not the asset with status 200. *)
Lemma C3_post_asset_counterexample :
  let c := mkRequest "POST" "/index.html" [] "" in
  let e := mkEnv site_store [] in
  (req_method c, req_path c) <> ("GET", "/api/health") /\
  (req_method c, req_path c) <> ("GET", "/api/hello") /\
  filePath "./" (req_path c) = Some "index.html" /\
  getContentFromKVAsset (store e) "index.html" = Ok (Some index_html) /\
  reads (snd (fetch app c e)) = [] /\
  res_status (fst (fetch app c e)) <> 200 /\
  res_body (fst (fetch app c e)) <> Some index_html.
Proof.
  cbv zeta; repeat split; try reflexivity; vm_compute; discriminate.
Qed.

Lemma C3_get_falls_back_to_static_witness :
  let c := GET_ "/index.html" [("accept", "text/html")] "" in
  let e := mkEnv site_store [] in
  router_match app "GET" (req_path c) = [route_static] /\
  fetch app c e = dispatch static_only c "GET" e /\
  res_status (fst (fetch app c e)) = 200 /\
  res_body (fst (fetch app c e)) = Some index_html.
Proof.
  cbv zeta.
  destruct (C3_get_falls_back_to_static
              (GET_ "/index.html" [("accept", "text/html")] "")
              (mkEnv site_store []))
    as (H1 & H2 & H3).
  - reflexivity.
  - discriminate.
  - discriminate.
  - split; [exact H1|]. split; [exact H2|].
    apply (H3 index_html "text/html; charset=utf-8").
    eexists; exists "index.html"; repeat split; reflexivity.
Defined.

(** C4, as the spec words it, fails: [app.get] registers the route for
    GET alone, so POST [/api/hello] is not answered like GET
    [/api/hello]; its status is 404 and its body is not the greeting. *)
Lemma C4_post_hello_counterexample :
  let e := mkEnv site_store [] in
  let post := fst (fetch app (mkRequest "POST" "/api/hello" [] "") e) in
  let get_ := fst (fetch app (mkRequest "GET" "/api/hello" [] "") e) in
  post <> get_ /\
  res_status post <> 200 /\
  res_body post <> Some hello_wire.
Proof.
  cbv zeta; repeat split; vm_compute; discriminate.
Qed.


Lemma static_asset_served_witness :
  let c := GET_ "/index.html" [] "" in
  let e := mkEnv site_store ["earlier.css"] in
  let r := fst (fetch app c e) in
  filePath "./" (req_path c) = Some "index.html" /\
  getContentFromKVAsset (store e) "index.html" = Ok (Some index_html) /\
  res_status r = 200 /\
  res_body r = Some index_html /\
  content_type r = Some "text/html; charset=utf-8".
Proof.
  cbv zeta; split; [reflexivity|]; split; [reflexivity|].
  apply (static_asset_served (GET_ "/index.html" [] "")
           (mkEnv site_store ["earlier.css"])
           index_html "text/html; charset=utf-8").
  - reflexivity.
  - reflexivity.
  - eexists; exists "index.html"; repeat split; reflexivity.
Defined.



Lemma C8_api_bodies_identical_witness :
  let answers := fst (run (mkServer app (mkEnv site_store [])) sample_traffic) in
  nth_error answers 0 = Some (c_json health_payload) /\
  nth_error answers 3 = Some (c_json health_payload) /\
  res_body (c_json health_payload) = res_body (c_json health_payload) /\
  (res_body (c_json health_payload) = Some health_wire \/
   res_body (c_json health_payload) = Some hello_wire).
Proof.
  cbv zeta; split; [reflexivity|]; split; [reflexivity|].
  apply (C8_api_bodies_identical (mkEnv site_store []) sample_traffic 0 3
           (GET_ "/api/health" [("accept", "*/*")] "")
           (GET_ "/api/health" [("x-trace", "7")] "ignored")
           (c_json health_payload) (c_json health_payload) "/api/health");
    first [ left; reflexivity | reflexivity ].
Defined.

(** C10, as stated, fails for HEAD: Hono dispatches a HEAD request as
    GET, so it meets the GET routes, the static handler consults the
    provider, and the status is that of the GET response, not 404. *)
Lemma C10_head_counterexample :
  let c := mkRequest "HEAD" "/index.html" [] "" in
  let e := mkEnv site_store [] in
  req_method c <> "GET" /\
  reads (snd (fetch app c e)) = ["index.html"] /\
  res_status (fst (fetch app c e)) = 200 /\
  res_status (fst (fetch app c e)) <> 404.
Proof.
  cbv zeta; repeat split; try reflexivity; vm_compute; discriminate.
Qed.

Lemma C10_other_methods_not_found_witness :
  let c := mkRequest "DELETE" "/index.html" [] "" in
  let e := mkEnv site_store [] in
  getContentFromKVAsset (store e) "index.html" = Ok (Some index_html) /\
  router_match app (req_method c) (req_path c) = [] /\
  fetch app c e = (not_found, e) /\
  reads (snd (fetch app c e)) = reads e.
Proof.
  cbv zeta; split; [reflexivity|].
  apply (C10_other_methods_not_found
           (mkRequest "DELETE" "/index.html" [] "") (mkEnv site_store []));
    discriminate.
Defined.

Lemma response_depends_on_method_path_asset_witness :
  let c1 := mkRequest "GET" "/index.html" [("accept", "text/html")] "" in
  let c2 := mkRequest "GET" "/index.html" [("cookie", "a=1")] "payload" in
  let e1 := mkEnv site_store [] in
  let e2 := mkEnv (Some (fun path =>
                     if String.eqb path "other.js" then Some "x"
                     else if String.eqb path "index.html" then Some index_html
                     else None)) ["other.js"] in
  fst (fetch app c1 e1) = fst (fetch app c2 e2).
Proof.
  cbv zeta.
  apply response_depends_on_method_path_asset; try reflexivity.
  intros path H; vm_compute in H; injection H as <-; reflexivity.
Defined.

Lemma later_route_cannot_shadow_witness :
  let c := GET_ "/api/health" [] "" in
  let e := mkEnv shadow_store [] in
  dispatch (get "*" (serveStatic "./") app_api_only) c "GET" e =
    dispatch app_api_only c "GET" e.
Proof.
  cbv zeta.
  apply (later_route_cannot_shadow app_api_only "*" (serveStatic "./")
           (GET_ "/api/health" [] "") "GET" (mkEnv shadow_store [])
           route_health []).
  - reflexivity.
  - intros n1 n2 e; reflexivity.
Defined.

Lemma static_route_keeps_api_answers_witness :
  let c := mkRequest "HEAD" "/api/hello" [] "" in
  let e := mkEnv shadow_store [] in
  res_status (fst (fetch app_api_only c e)) = 200 /\
  fetch app c e = fetch app_api_only c e /\
  snd (fetch app c e) = e.
Proof.
  cbv zeta; split; [reflexivity|].
  apply (static_route_keeps_api_answers
           (mkRequest "HEAD" "/api/hello" [] "") (mkEnv shadow_store [])).
  left; vm_compute; discriminate.
Defined.

Lemma no_manifest_is_500_witness :
  let c := GET_ "/index.html" [] "" in
  let e := mkEnv None [] in
  res_status (fst (fetch app c e)) = 500 /\
  (req_method c = "GET" -> fst (fetch app c e) = errorHandler).
Proof.
  cbv zeta.
  apply (no_manifest_is_500 (GET_ "/index.html" [] "") (mkEnv None [])
           "index.html").
  - reflexivity.
  - left; reflexivity.
  - discriminate.
  - discriminate.
  - reflexivity.
Defined.
